(** * Chips Commerce API: a shallow embedding of [main.py]

    The request handlers of [main.py] are embedded as computations in a
    state-and-exception monad over a document store.  Python floats are
    IEEE binary64 values ([spec_float] with precision 53), Python ints are
    [Z], dictionaries are insertion-ordered association lists. *)

From stdpp Require Import gmap strings list fin_maps.
From Stdlib Require Import ZArith SpecFloat.

Local Open Scope Z_scope.
Local Open Scope string_scope.
Local Open Scope list_scope.

(** ** Python floats *)

Module PyFloat.

Definition prec : Z := 53.
Definition emax : Z := 1024.

Definition float : Type := spec_float.

Definition fadd : float → float → float := SFadd prec emax.
Definition fmul : float → float → float := SFmul prec emax.
Definition fdiv : float → float → float := SFdiv prec emax.

(** The binary64 value nearest to an integer (ties to even); integers
    past the largest finite float land on an infinity. *)
Definition nearest (z : Z) : float := binary_normalize prec emax z 0 false.

(** A decimal literal [n/d] of the source text, read as the nearest
    binary64 value: [float_lit 299 100] is the literal [2.99]. *)
Definition float_lit (n : Z) (d : positive) : float :=
  fdiv (nearest n) (nearest (Zpos d)).

(** [float(n)] for a Python int: [None] stands for
    [OverflowError: int too large to convert to float]. *)
Definition int_to_float (z : Z) : option float :=
  match nearest z with
  | S754_infinity _ => None
  | f => Some f
  end.

(** [num/den] rounded to the nearest integer, ties to the even one. *)
Definition half_even (num den : Z) : Z :=
  let q := num / den in
  let r := num mod den in
  match 2 * r ?= den with
  | Lt => q
  | Gt => q + 1
  | Eq => if Z.even q then q else q + 1
  end.

(** The exact value [m * 2^e] counted in hundredths, rounded half-even. *)
Definition hundredths (m : positive) (e : Z) : Z :=
  match e with
  | Zneg p => half_even (100 * Zpos m) (2 ^ Zpos p)
  | _ => 100 * Zpos m * 2 ^ e
  end.

(** [round(x, 2)]: infinities and NaN round to themselves; a finite [x]
    is rounded exactly to two decimals (ties to even) and the decimal
    result is read back as the nearest binary64 value, keeping the sign
    of [x] when the result is zero. *)
Definition round2 (x : float) : float :=
  match x with
  | S754_finite s m e =>
      match hundredths m e with
      | Zpos n => fdiv (S754_finite s n 0) (S754_finite false 100 0)
      | _ => S754_zero s
      end
  | _ => x
  end.

Definition zero : float := S754_zero false.

End PyFloat.
Import PyFloat.

(** ** Python strings, JSON-like values and documents *)

(** Text held in documents is compared and tested for emptiness only, and is
    kept as a [string].  Where the code slices a [str] it is kept as the
    sequence of its Unicode code points. *)
Abbreviation pystr := (list N).

Definition lit (s : string) : pystr :=
  map Ascii.N_of_ascii (String.list_ascii_of_string s).

#[local] Set Warnings "-register-all".

Inductive value : Type :=
| VNone
| VBool (b : bool)
| VInt (z : Z)
| VFloat (f : float)
| VStr (s : string)
| VId (n : nat)
| VList (l : list value)
| VDict (d : list (string * value)).

(** A Python [dict] with string keys, in insertion order. *)
Abbreviation dict V := (list (string * V)).
Abbreviation document := (dict value).

Fixpoint dict_get {V} (k : string) (d : dict V) : option V :=
  match d with
  | [] => None
  | (k', v) :: d' => if String.eqb k k' then Some v else dict_get k d'
  end.

(** [d[k] = v]: overwrite in place when the key exists, append otherwise. *)
Fixpoint dict_set {V} (k : string) (v : V) (d : dict V) : dict V :=
  match d with
  | [] => [(k, v)]
  | (k', v') :: d' =>
      if String.eqb k k' then (k', v) :: d' else (k', v') :: dict_set k v d'
  end.

Fixpoint value_eqb (a b : value) : bool :=
  match a, b with
  | VNone, VNone => true
  | VBool x, VBool y => Bool.eqb x y
  | VInt x, VInt y => Z.eqb x y
  | VFloat x, VFloat y => SFeqb x y
  | VStr x, VStr y => String.eqb x y
  | VId x, VId y => Nat.eqb x y
  | VList xs, VList ys =>
      (fix go (xs ys : list value) : bool :=
         match xs, ys with
         | [], [] => true
         | x :: xs', y :: ys' => value_eqb x y && go xs' ys'
         | _, _ => false
         end) xs ys
  | VDict xs, VDict ys =>
      (fix go (xs ys : document) : bool :=
         match xs, ys with
         | [], [] => true
         | (k, x) :: xs', (k', y) :: ys' =>
             String.eqb k k' && value_eqb x y && go xs' ys'
         | _, _ => false
         end) xs ys
  | _, _ => false
  end.

(** ** Computations with state and exceptions *)

Inductive result (E A : Type) : Type :=
| Ok (a : A)
| Raise (e : E).
Arguments Ok {E A} a.
Arguments Raise {E A} e.

(** A computation over a state [S] that returns an [A] or raises an [E]. *)
Definition prog (S E A : Type) : Type := S → result E A * S.

Definition ret {S E A} (a : A) : prog S E A := λ s, (Ok a, s).
Definition raise {S E A} (e : E) : prog S E A := λ s, (Raise e, s).
Definition bind {S E A B} (m : prog S E A) (k : A → prog S E B) : prog S E B :=
  λ s, match m s with
       | (Ok a, s') => k a s'
       | (Raise e, s') => (Raise e, s')
       end.

(** What a call into a library raises: an instance of [Exception], or an
    instance of a class outside it ([KeyboardInterrupt], [SystemExit],
    [GeneratorExit], ...).  Either is kept with its [str(e)]. *)
Inductive raised : Type :=
| AnException (msg : pystr)
| ABaseException (msg : pystr).

(** [str(e)] *)
Definition text (e : raised) : pystr :=
  match e with
  | AnException msg => msg
  | ABaseException msg => msg
  end.

(** [isinstance(e, Exception)] *)
Definition is_Exception (e : raised) : bool :=
  match e with
  | AnException _ => true
  | ABaseException _ => false
  end.

(** [try: body / except Exception as e: handler]: an instance of
    [Exception] goes to the handler, anything else passes through; what
    [body] did to the state before raising stays done. *)
Definition try_except {S A} (body : prog S raised A)
    (handler : raised → prog S raised A) : prog S raised A :=
  λ s, match body s with
       | (Ok a, s') => (Ok a, s')
       | (Raise e, s') =>
           if is_Exception e then handler e s' else (Raise e, s')
       end.

Notation "'let!' x ':=' m 'in' k" := (bind m (λ x, k))
  (at level 10, x binder, m at level 100, k at level 200).

(** ** The document store ([database.py]) *)

(** Modelled from the spec: the state of the external document store behind
    [database.py], "named collections of JSON-like records", together with
    the counter from which the store assigns ids. *)
Record database : Type := {
  collections : gmap string (list document);
  next_id : nat
}.

Definition collection (name : string) (db : database) : list document :=
  default [] (collections db !! name).

(** A document matches an equality filter when it carries every key of the
    filter with an equal value. *)
Definition matches (filter_dict d : document) : bool :=
  forallb (λ kv, match dict_get kv.1 d with
                 | Some v => value_eqb v kv.2
                 | None => false
                 end) filter_dict.

(** What a handler can raise: [HTTPException], the [OverflowError] of int to
    float conversion, and what [test_database] lets through. *)
Inductive exn : Type :=
| HTTPException (status_code : Z) (detail : string)
| OverflowError (msg : string)
| Propagated (e : raised).

(** A handler runs against the store. *)
Abbreviation M := (prog database exn).

(** Modelled from the spec: [database.get_documents(collection, filter,
    limit)], the store's read-many operation: an equality filter, "up to"
    [limit] matching records, in the store's default (insertion) order; the
    store is left as it is. *)
Definition get_documents (name : string) (filter_dict : document)
    (limit : nat) : M (list document) :=
  λ db, (Ok (take limit (filter (λ d, matches filter_dict d) (collection name db))), db).

(** Modelled from the spec: [database.create_document(collection, data)],
    the store's insert-one operation: the record is inserted as given, the
    store assigns it an id, and the stored document is returned. *)
Definition create_document (name : string) (data : document) : M document :=
  λ db, let doc := dict_set "id" (VId (next_id db)) data in
        (Ok doc,
         {| collections := <[name := collection name db ++ [doc]]> (collections db);
            next_id := S (next_id db) |}).

(** Reading an attribute of an object: it is missing ([AttributeError]), it
    has a value, or reading it raises something else. *)
Inductive attribute : Type :=
| NoAttribute
| Attribute (v : pystr)
| AttributeRaises (e : raised).

(** Modelled from the spec: the handle [database.db] of the store, as far as
    [test_database] looks at it: the attribute [name], and
    [list_collection_names()], which returns the names or raises. *)
Record Database : Type := {
  name : attribute;
  list_collection_names : result raised (list pystr)
}.

(** ** Schemas ([schemas.py]) *)

Module Product.
(** Modelled from the spec: [schemas.Product], the nine fields of the data
    model, typed as the seed literals of [seed_products] type them. *)
Record t : Type := {
  title : string;
  description : string;
  price : float;
  category : string;
  in_stock : bool;
  image_url : string;
  rating : float;
  brand : string;
  weight_grams : Z
}.

(** [product.dict()] *)
Definition dict (p : t) : document :=
  [ ("title", VStr (title p));
    ("description", VStr (description p));
    ("price", VFloat (price p));
    ("category", VStr (category p));
    ("in_stock", VBool (in_stock p));
    ("image_url", VStr (image_url p));
    ("rating", VFloat (rating p));
    ("brand", VStr (brand p));
    ("weight_grams", VInt (weight_grams p)) ].
End Product.

Module OrderItem.
(** Modelled from the spec: [schemas.OrderItem], "product reference, price,
    quantity", the price a float and the quantity an int as in the spec's
    example order. *)
Record t : Type := {
  product_id : string;
  price : float;
  quantity : Z
}.

(** [item.dict()] *)
Definition dict (i : t) : document :=
  [ ("product_id", VStr (product_id i));
    ("price", VFloat (price i));
    ("quantity", VInt (quantity i)) ].
End OrderItem.

Module Order.
(** Modelled from the spec: [schemas.Order], "ordered collection of
    OrderItem" and "a subtotal field". *)
Record t : Type := {
  items : list OrderItem.t;
  subtotal : float
}.

(** [order.dict()] *)
Definition dict (o : t) : document :=
  [ ("items", VList (map (λ i, VDict (OrderItem.dict i)) (items o)));
    ("subtotal", VFloat (subtotal o)) ].
End Order.

(** ** Handlers *)

Definition read_root : M document :=
  ret [("message", VStr "Chips Commerce Backend Running")].

Definition get_schema : M document :=
  ret [("user", VStr "User"); ("product", VStr "Product"); ("order", VStr "Order")].

(** Truth value of a Python [str]. *)
Definition truthy (s : string) : bool := negb (String.eqb s "").

Definition list_products (category : option string) : M (list document) :=
  let filter_q :=
    match category with
    | Some c => if truthy c then [("category", VStr c)] else []
    | None => []
    end in
  let! docs := get_documents "product" filter_q 100 in
  ret docs.

Definition create_product (product : Product.t) : M document :=
  let! doc := create_document "product" (Product.dict product) in
  ret doc.

(** The four literal records of [seed_products]. *)
Definition chips : list document :=
  [ [ ("title", VStr "Classic Salted Potato Chips");
      ("description", VStr "Crispy, thin-cut potatoes with a perfect salty crunch.");
      ("price", VFloat (float_lit 299 100));
      ("category", VStr "potato");
      ("in_stock", VBool true);
      ("image_url", VStr "https://images.unsplash.com/photo-1541592106381-b31e9677c0e5?w=800");
      ("rating", VFloat (float_lit 46 10));
      ("brand", VStr "CrunchCraft");
      ("weight_grams", VInt 150) ];
    [ ("title", VStr "Spicy Tortilla Chips");
      ("description", VStr "Stone-ground corn chips dusted with fiery chili and lime.");
      ("price", VFloat (float_lit 349 100));
      ("category", VStr "tortilla");
      ("in_stock", VBool true);
      ("image_url", VStr "https://images.unsplash.com/photo-1604908176997-4316c288032e?w=800");
      ("rating", VFloat (float_lit 47 10));
      ("brand", VStr "FuegoBite");
      ("weight_grams", VInt 170) ];
    [ ("title", VStr "Cheddar Ridges");
      ("description", VStr "Ridged chips blasted with bold cheddar cheese flavor.");
      ("price", VFloat (float_lit 319 100));
      ("category", VStr "potato");
      ("in_stock", VBool true);
      ("image_url", VStr "https://images.unsplash.com/photo-1613478223719-3c84c68ffd4a?w=800");
      ("rating", VFloat (float_lit 44 10));
      ("brand", VStr "RidgeRush");
      ("weight_grams", VInt 160) ];
    [ ("title", VStr "Sea Salt Kettle Chips");
      ("description", VStr "Thick-cut kettle chips cooked in small batches for extra crunch.");
      ("price", VFloat (float_lit 399 100));
      ("category", VStr "kettle");
      ("in_stock", VBool true);
      ("image_url", VStr "https://images.unsplash.com/photo-1585238342028-4bbc3e2f5b42?w=800");
      ("rating", VFloat (float_lit 48 10));
      ("brand", VStr "KettleCo");
      ("weight_grams", VInt 200) ] ].

(** [for c in chips: await create_document("product", c); inserted += 1] *)
Fixpoint seed_loop (cs : list document) (inserted : Z) : M Z :=
  match cs with
  | [] => ret inserted
  | c :: cs' =>
      let! _ := create_document "product" c in
      seed_loop cs' (inserted + 1)
  end.

Definition seed_products : M document :=
  let! existing := get_documents "product" [] 1 in
  match existing with
  | _ :: _ =>
      ret [("inserted", VInt 0); ("message", VStr "Products already seeded")]
  | [] =>
      let! inserted := seed_loop chips 0 in
      ret [("inserted", VInt inserted)]
  end.

(** [x * n] for a float [x] and an int [n]: the int is converted first, and
    the conversion raises when [n] is out of the float range. *)
Definition float_mul_int (x : float) (n : Z) : M float :=
  match int_to_float n with
  | Some y => ret (fmul x y)
  | None => raise (OverflowError "int too large to convert to float")
  end.

(** [for item in order.items: subtotal += item.price * item.quantity] *)
Fixpoint subtotal_loop (its : list OrderItem.t) (subtotal : float) : M float :=
  match its with
  | [] => ret subtotal
  | item :: its' =>
      let! line := float_mul_int (OrderItem.price item) (OrderItem.quantity item) in
      subtotal_loop its' (fadd subtotal line)
  end.

Definition create_order (order : Order.t) : M document :=
  match Order.items order with
  | [] => raise (HTTPException 400 "Order must contain at least one item")
  | _ :: _ =>
      let! subtotal := subtotal_loop (Order.items order) zero in
      let order := {| Order.items := Order.items order;
                      Order.subtotal := round2 subtotal |} in
      let! doc := create_document "order" (Order.dict order) in
      ret doc
  end.

(** ** The diagnostic handler *)

Inductive diag_value : Type :=
| DNone
| DStr (s : pystr)
| DNames (l : list pystr).

Abbreviation diagnostic := (dict diag_value).

Definition ok_mark : pystr := [0x2705%N].
Definition no_mark : pystr := [0x274C%N].
Definition warn_mark : pystr := [0x26A0%N; 0xFE0F%N].

(** [response[k] = v] *)
Definition assign (k : string) (v : diag_value) : prog diagnostic raised () :=
  λ response, (Ok (), dict_set k v response).

(** A call into the store handle, which returns or raises. *)
Definition call {A} (r : result raised A) : prog diagnostic raised A :=
  λ response, (r, response).

(** [db.name if hasattr(db, 'name') else "✅ Connected"]: [hasattr] answers
    [False] for a missing attribute and lets any other exception through. *)
Definition name_or_connected (d : Database) : prog diagnostic raised pystr :=
  match name d with
  | Attribute v => ret v
  | NoAttribute => ret (ok_mark ++ lit " Connected")
  | AttributeRaises e => raise e
  end.

(** [os.getenv(k)] as a condition: set and not empty. *)
Definition getenv_truthy (environ : gmap string pystr) (k : string) : bool :=
  match environ !! k with
  | Some (_ :: _) => true
  | _ => false
  end.

Definition initial_response : diagnostic :=
  [ ("backend", DStr (ok_mark ++ lit " Running"));
    ("database", DStr (no_mark ++ lit " Not Available"));
    ("database_url", DNone);
    ("database_name", DNone);
    ("connection_status", DStr (lit "Not Connected"));
    ("collections", DNames []) ].

Definition test_database_body (db : option Database)
    (environ : gmap string pystr) : prog diagnostic raised () :=
  let! _ :=
    try_except
      (match db with
       | Some d =>
           let! _ := assign "database" (DStr (ok_mark ++ lit " Available")) in
           let! _ := assign "database_url" (DStr (ok_mark ++ lit " Configured")) in
           let! n := name_or_connected d in
           let! _ := assign "database_name" (DStr n) in
           let! _ := assign "connection_status" (DStr (lit "Connected")) in
           try_except
             (let! collections := call (list_collection_names d) in
              let! _ := assign "collections" (DNames (take 10 collections)) in
              assign "database" (DStr (ok_mark ++ lit " Connected & Working")))
             (λ e, assign "database"
                     (DStr (warn_mark ++ lit "  Connected but Error: "
                            ++ take 50 (text e))))
       | None =>
           assign "database" (DStr (warn_mark ++ lit "  Available but not initialized"))
       end)
      (λ e, assign "database"
              (DStr (no_mark ++ lit " Error: " ++ take 50 (text e)))) in
  let! _ := assign "database_url"
              (DStr (if getenv_truthy environ "DATABASE_URL"
                     then ok_mark ++ lit " Set" else no_mark ++ lit " Not Set")) in
  assign "database_name"
    (DStr (if getenv_truthy environ "DATABASE_NAME"
           then ok_mark ++ lit " Set" else no_mark ++ lit " Not Set")).

Definition test_database (db : option Database) (environ : gmap string pystr)
    : result raised diagnostic :=
  match test_database_body db environ initial_response with
  | (Ok _, response) => Ok response
  | (Raise e, _) => Raise e
  end.

(** ** The routes *)

Inductive request : Type :=
| GET_root
| GET_schema
| GET_api_products (category : option string)
| POST_api_products (product : Product.t)
| GET_api_seed
| POST_api_orders (order : Order.t)
| GET_test.

Inductive response : Type :=
| Doc (d : document)
| Docs (l : list document)
| Diag (d : diagnostic).

(** The application: each route runs its handler; [db] and [environ] are the
    store handle and the process environment that [test_database] reads. *)
Definition app (db : option Database) (environ : gmap string pystr)
    (r : request) : M response :=
  match r with
  | GET_root => let! d := read_root in ret (Doc d)
  | GET_schema => let! d := get_schema in ret (Doc d)
  | GET_api_products category => let! l := list_products category in ret (Docs l)
  | POST_api_products product => let! d := create_product product in ret (Doc d)
  | GET_api_seed => let! d := seed_products in ret (Doc d)
  | POST_api_orders order => let! d := create_order order in ret (Doc d)
  | GET_test =>
      match test_database db environ with
      | Ok d => ret (Diag d)
      | Raise e => raise (Propagated e)
      end
  end.

(** ** Auxiliary definitions for the statements *)

(** The documents the store holds after inserting [cs] one after the other,
    the first of them under id [n]. *)
Fixpoint with_ids (n : nat) (cs : list document) : list document :=
  match cs with
  | [] => []
  | c :: cs' => dict_set "id" (VId n) c :: with_ids (S n) cs'
  end.

Definition empty_db : database := {| collections := ∅; next_id := 0 |}.

Definition already_seeded : document :=
  [("inserted", VInt 0); ("message", VStr "Products already seeded")].

(** The filter [list_products] hands to the store for a given parameter. *)
Definition listing_filter (category : option string) : document :=
  match category with
  | Some c => if truthy c then [("category", VStr c)] else []
  | None => []
  end.

(** A store whose product collection already holds 100 potato records. *)
Definition potato_record : document := [("category", VStr "potato")].

Definition full_db : database :=
  {| collections := {["product" := replicate 100 potato_record]};
     next_id := 100 |}.

Definition salted_chips : Product.t :=
  {| Product.title := "Classic Salted Potato Chips";
     Product.description := "Crispy, thin-cut potatoes with a perfect salty crunch.";
     Product.price := float_lit 299 100;
     Product.category := "potato";
     Product.in_stock := true;
     Product.image_url := "https://images.unsplash.com/photo-1541592106381-b31e9677c0e5?w=800";
     Product.rating := float_lit 46 10;
     Product.brand := "CrunchCraft";
     Product.weight_grams := 150 |}.

(** The spec's [round(sum(price*quantity), 2)]: each line is the price times
    the quantity as a float, the lines are summed from [0.0] in the order of
    the items, and the sum is rounded to two decimals. *)
Definition line_total (item : OrderItem.t) : float :=
  fmul (OrderItem.price item) (nearest (OrderItem.quantity item)).

Definition sum_floats (l : list float) : float := fold_left fadd l zero.

Definition recomputed_subtotal (its : list OrderItem.t) : float :=
  round2 (sum_floats (map line_total its)).

(** The quantities Python converts to a float without raising. *)
Definition in_float_range (n : Z) : Prop := is_Some (int_to_float n).

Definition quantities_in_range (its : list OrderItem.t) : Prop :=
  Forall (λ item, in_float_range (OrderItem.quantity item)) its.

(** The document [create_order] stores for an order, under id [n]. *)
Definition stored_order (order : Order.t) (n : nat) : document :=
  [ ("items", VList (map (λ i, VDict (OrderItem.dict i)) (Order.items order)));
    ("subtotal", VFloat (recomputed_subtotal (Order.items order)));
    ("id", VId n) ].

Definition empty_order_error : exn :=
  HTTPException 400 "Order must contain at least one item".

(** The order of the spec's example. *)
Definition example_order (p1 p2 : string) (submitted : float) : Order.t :=
  {| Order.items :=
       [ {| OrderItem.product_id := p1; OrderItem.price := float_lit 299 100;
            OrderItem.quantity := 2 |};
         {| OrderItem.product_id := p2; OrderItem.price := float_lit 349 100;
            OrderItem.quantity := 1 |} ];
     Order.subtotal := submitted |}.

(** An order for [2^1024] bags of chips. *)
Definition huge_order : Order.t :=
  {| Order.items :=
       [ {| OrderItem.product_id := "chips-1"; OrderItem.price := float_lit 299 100;
            OrderItem.quantity := 2 ^ 1024 |} ];
     Order.subtotal := zero |}.

Definition empty_order : Order.t :=
  {| Order.items := []; Order.subtotal := float_lit 947 100 |}.

(** The effect of a handler on the store: the documents [added] are put
    behind the collection [name], each under the next id, and every other
    collection is left as it is. *)
Definition appends (name : string) (added : list document)
    (db db' : database) : Prop :=
  collection name db' = collection name db ++ added
  ∧ (∀ name', name ≠ name' → collection name' db' = collection name' db)
  ∧ next_id db' = (next_id db + length added)%nat.

(** The routes that only read. *)
Definition read_only (r : request) : bool :=
  match r with
  | GET_root | GET_schema | GET_api_products _ | GET_test => true
  | POST_api_products _ | GET_api_seed | POST_api_orders _ => false
  end.

(** The titles of a list of product documents. *)
Definition titles (docs : list document) : list (option value) :=
  map (dict_get "title") docs.

(** An order with a price that is not a number. *)
Definition nan_order : Order.t :=
  {| Order.items :=
       [ {| OrderItem.product_id := "chips-1"; OrderItem.price := float_lit 299 100;
            OrderItem.quantity := 2 |};
         {| OrderItem.product_id := "chips-2"; OrderItem.price := S754_nan;
            OrderItem.quantity := 1 |} ];
     Order.subtotal := zero |}.

(** The store after a sequence of requests handled one after the other. *)
Definition serve (h : option Database) (environ : gmap string pystr)
    (reqs : list request) (db : database) : database :=
  fold_left (λ db r, (app h environ r db).2) reqs db.

(** A store with a potato and a kettle record. *)
Definition small_db : database :=
  {| collections := {["product" := [potato_record; [("category", VStr "kettle")]]]};
     next_id := 2 |}.

(** The store handles that raise nothing but instances of [Exception],
    whether on reading [name] or on listing the collections. *)
Definition raises_only_Exception (db : option Database) : Prop :=
  ∀ d, db = Some d →
    (∀ e, name d = AttributeRaises e → is_Exception e = true)
    ∧ (∀ e, list_collection_names d = Raise e → is_Exception e = true).

(** A handle whose server refuses the connection. *)
Definition refusing_handle : Database :=
  {| name := Attribute (lit "chips");
     list_collection_names := Raise (AnException (lit "connection refused")) |}.

(** A handle whose call is interrupted by a [KeyboardInterrupt]. *)
Definition interrupted_handle : Database :=
  {| name := Attribute (lit "chips");
     list_collection_names := Raise (ABaseException []) |}.

(** * Properties *)

(** ** Dictionaries *)

Lemma dict_get_set_eq {V} (k : string) (v : V) (d : dict V) :
  dict_get k (dict_set k v d) = Some v.
Proof.
  induction d as [|[k' v'] d IH]; simpl.
  - by rewrite String.eqb_refl.
  - destruct (String.eqb k k') eqn:E; simpl; rewrite E; [done | apply IH].
Qed.

Lemma dict_get_set_ne {V} (k k' : string) (v : V) (d : dict V) :
  k ≠ k' → dict_get k' (dict_set k v d) = dict_get k' d.
Proof.
  intros Hne. induction d as [|[k0 v0] d IH]; simpl.
  - destruct (String.eqb k' k) eqn:E; [|done].
    apply String.eqb_eq in E. congruence.
  - destruct (String.eqb k k0) eqn:E; simpl; [|by rewrite IH].
    apply String.eqb_eq in E. subst k0.
    destruct (String.eqb k' k) eqn:E'; [|done].
    apply String.eqb_eq in E'. congruence.
Qed.

Lemma value_eqb_VStr (v : value) (s : string) :
  value_eqb v (VStr s) = true → v = VStr s.
Proof.
  destruct v; simpl; try discriminate.
  intros E. apply String.eqb_eq in E. by subst.
Qed.

(** ** The store *)

Lemma matches_category (c : string) (d : document) :
  matches [("category", VStr c)] d = true ↔ dict_get "category" d = Some (VStr c).
Proof.
  unfold matches; simpl. split.
  - destruct (dict_get "category" d) as [v|]; [|done].
    rewrite andb_true_r. intros E. by rewrite (value_eqb_VStr _ _ E).
  - intros ->. simpl. by rewrite String.eqb_refl.
Qed.

Lemma filter_matches_all (l : list document) :
  filter (λ d, matches [] d) l = l.
Proof.
  induction l as [|d l IH]; [done|].
  rewrite filter_cons_True; [by rewrite IH | done].
Qed.

Lemma collection_insert_eq (name : string) (l : list document) (db : database) n :
  collection name {| collections := <[name := l]> (collections db); next_id := n |} = l.
Proof. unfold collection; simpl. by rewrite lookup_insert_eq. Qed.

Lemma collection_insert_ne (name name' : string) (l : list document)
    (db : database) n :
  name ≠ name' →
  collection name' {| collections := <[name := l]> (collections db); next_id := n |}
  = collection name' db.
Proof. intros Hne. unfold collection; simpl. by rewrite lookup_insert_ne. Qed.

Lemma create_document_run (name : string) (data : document) (db : database) :
  ∃ db', create_document name data db = (Ok (dict_set "id" (VId (next_id db)) data), db')
    ∧ collection name db'
      = collection name db ++ [dict_set "id" (VId (next_id db)) data]
    ∧ (∀ name', name ≠ name' → collection name' db' = collection name' db)
    ∧ next_id db' = S (next_id db).
Proof.
  eexists. split; [reflexivity|]. split; [apply collection_insert_eq|].
  split; [|done]. intros name' Hne. by apply collection_insert_ne.
Qed.

(** ** Listing products *)

Lemma list_products_run (category : option string) (db : database) :
  list_products category db
  = (Ok (take 100 (filter (λ d, matches
           match category with
           | Some c => if truthy c then [("category", VStr c)] else []
           | None => []
           end d) (collection "product" db))), db).
Proof. reflexivity. Qed.

(** C4: a listing with a non-empty category returns only records of the
    product collection whose category is that string, and every listing,
    filtered or not, returns at most 100 records and leaves the store as it
    is. *)
Theorem list_products_category_and_limit (category : option string)
    (db : database) :
  ∃ docs, list_products category db = (Ok docs, db)
    ∧ (length docs ≤ 100)%nat
    ∧ docs ⊆ collection "product" db
    ∧ ∀ c, category = Some c → c ≠ "" →
        Forall (λ d, dict_get "category" d = Some (VStr c)) docs.
Proof.
  eexists. split; [apply list_products_run|].
  split; [rewrite length_take; lia|].
  split.
  - etrans; [apply subseteq_take|]. intros d Hd.
    by apply list_elem_of_filter in Hd as [_ ?].
  - intros c -> Hc. apply Forall_take, Forall_forall. intros d Hd.
    apply list_elem_of_filter in Hd as [Hm _].
    assert (truthy c = true) as Ht.
    { unfold truthy. apply negb_true_iff, String.eqb_neq. done. }
    rewrite Ht in Hm. apply matches_category. by apply Is_true_true.
Qed.

(** C9: an empty-string category is the same request as no category: no
    filter is applied and the first 100 products are returned, whatever
    their category. *)
Theorem list_products_empty_category (db : database) :
  list_products (Some "") db = list_products None db
  ∧ list_products (Some "") db = (Ok (take 100 (collection "product" db)), db).
Proof.
  split; [reflexivity|].
  rewrite list_products_run. simpl. by rewrite filter_matches_all.
Qed.

(** ** Creating a product *)

(** C6: [create_product] appends to the product collection the submitted
    record with each of its nine fields (title, description, price,
    category, in_stock, image_url, rating, brand, weight_grams) as given,
    plus the id the store assigns, returns that stored document, and touches
    no other collection. *)
Theorem create_product_stores_verbatim (product : Product.t) (db : database) :
  ∃ doc db', create_product product db = (Ok doc, db')
    ∧ doc = [ ("title", VStr (Product.title product));
              ("description", VStr (Product.description product));
              ("price", VFloat (Product.price product));
              ("category", VStr (Product.category product));
              ("in_stock", VBool (Product.in_stock product));
              ("image_url", VStr (Product.image_url product));
              ("rating", VFloat (Product.rating product));
              ("brand", VStr (Product.brand product));
              ("weight_grams", VInt (Product.weight_grams product));
              ("id", VId (next_id db)) ]
    ∧ dict_get "title" doc = Some (VStr (Product.title product))
    ∧ dict_get "description" doc = Some (VStr (Product.description product))
    ∧ dict_get "price" doc = Some (VFloat (Product.price product))
    ∧ dict_get "category" doc = Some (VStr (Product.category product))
    ∧ dict_get "in_stock" doc = Some (VBool (Product.in_stock product))
    ∧ dict_get "image_url" doc = Some (VStr (Product.image_url product))
    ∧ dict_get "rating" doc = Some (VFloat (Product.rating product))
    ∧ dict_get "brand" doc = Some (VStr (Product.brand product))
    ∧ dict_get "weight_grams" doc = Some (VInt (Product.weight_grams product))
    ∧ dict_get "id" doc = Some (VId (next_id db))
    ∧ (∀ k, k ≠ "id" → dict_get k doc = dict_get k (Product.dict product))
    ∧ collection "product" db' = collection "product" db ++ [doc]
    ∧ ∀ name, name ≠ "product" → collection name db' = collection name db.
Proof.
  destruct (create_document_run "product" (Product.dict product) db)
    as (db' & Hrun & Hcoll & Hother & _).
  exists (dict_set "id" (VId (next_id db)) (Product.dict product)), db'.
  split; [unfold create_product, bind; by rewrite Hrun|].
  split; [reflexivity|].
  do 10 (split; [reflexivity|]).
  split; [intros k Hk; by apply dict_get_set_ne|].
  split; [done|]. intros name Hne. by apply Hother.
Qed.

Lemma list_products_category_and_limit_witness :
  ∃ docs, list_products (Some "potato") full_db = (Ok docs, full_db)
    ∧ Forall (λ d, dict_get "category" d = Some (VStr "potato")) docs.
Proof.
  destruct (list_products_category_and_limit (Some "potato") full_db)
    as (docs & Hrun & _ & _ & Hcat).
  exists docs. split; [exact Hrun|].
  apply (Hcat "potato"); [reflexivity | discriminate].
Defined.

(** ** Seeding *)

Lemma seed_loop_run (cs : list document) (inserted : Z) (db : database) :
  ∃ db', seed_loop cs inserted db = (Ok (inserted + Z.of_nat (length cs)), db')
    ∧ collection "product" db'
      = collection "product" db ++ with_ids (next_id db) cs
    ∧ (∀ name, name ≠ "product" → collection name db' = collection name db)
    ∧ next_id db' = (next_id db + length cs)%nat.
Proof.
  revert inserted db. induction cs as [|c cs IH]; intros inserted db.
  - exists db. simpl. unfold ret.
    rewrite Z.add_0_r, app_nil_r, Nat.add_0_r. done.
  - destruct (create_document_run "product" c db)
      as (db1 & Hrun & Hcoll & Hother & Hid).
    destruct (IH (inserted + 1) db1) as (db2 & Hloop & Hcoll2 & Hother2 & Hid2).
    exists db2. split.
    + simpl. unfold bind. rewrite Hrun, Hloop. do 2 f_equal. lia.
    + split; [|split].
      * rewrite Hcoll2, Hcoll, Hid, <- app_assoc. done.
      * intros name Hne. rewrite Hother2, Hother; done.
      * rewrite Hid2, Hid. simpl. lia.
Qed.

Lemma seed_products_nonempty (db : database) :
  collection "product" db ≠ [] → seed_products db = (Ok already_seeded, db).
Proof.
  intros Hne. unfold seed_products, bind, get_documents.
  rewrite filter_matches_all.
  destruct (collection "product" db); [done | reflexivity].
Qed.

Lemma seed_products_empty (db : database) :
  collection "product" db = [] →
  ∃ db', seed_products db = (Ok [("inserted", VInt 4)], db')
    ∧ collection "product" db' = with_ids (next_id db) chips
    ∧ ∀ name, name ≠ "product" → collection name db' = collection name db.
Proof.
  intros Hempty.
  destruct (seed_loop_run chips 0 db) as (db' & Hloop & Hcoll & Hother & _).
  rewrite Hempty in Hcoll. exists db'. split; [|by split].
  unfold seed_products, bind, get_documents. rewrite Hempty.
  cbn -[seed_loop chips]. rewrite Hloop. reflexivity.
Qed.

(** C3: on an empty product collection [seed_products] inserts exactly the
    four literal records, each with the id the store assigns, and reports
    [inserted: 4]; on a non-empty one, and so on any call after a seed, it
    changes nothing and reports [inserted: 0]. *)
Theorem seed_products_inserts_once (db : database) :
  (collection "product" db = [] →
     ∃ db', seed_products db = (Ok [("inserted", VInt 4)], db')
       ∧ collection "product" db'
         = zip_with (λ c i, c ++ [("id", VId i)]) chips (seq (next_id db) 4)
       ∧ (∀ name, name ≠ "product" → collection name db' = collection name db)
       ∧ seed_products db' = (Ok already_seeded, db'))
  ∧ (collection "product" db ≠ [] →
       seed_products db = (Ok already_seeded, db)).
Proof.
  split; [|apply seed_products_nonempty].
  intros Hempty.
  destruct (seed_products_empty db Hempty) as (db' & Hrun & Hcoll & Hother).
  exists db'. split; [exact Hrun|]. split; [rewrite Hcoll; reflexivity|].
  split; [exact Hother|].
  apply seed_products_nonempty. rewrite Hcoll. discriminate.
Qed.

Lemma seed_products_inserts_once_witness :
  ∃ db', seed_products empty_db = (Ok [("inserted", VInt 4)], db')
    ∧ length (collection "product" db') = 4%nat
    ∧ seed_products db' = (Ok already_seeded, db').
Proof.
  destruct (seed_products_inserts_once empty_db) as [Hfirst _].
  destruct (Hfirst eq_refl) as (db' & Hrun & Hcoll & _ & Hagain).
  exists db'. split; [exact Hrun|]. split; [|exact Hagain].
  rewrite Hcoll. reflexivity.
Defined.

(** ** Creating, then listing *)

Lemma created_product_matches (product : Product.t) (category : option string)
    (n : nat) :
  category = None ∨ category = Some (Product.category product) →
  matches (listing_filter category)
    (dict_set "id" (VId n) (Product.dict product)) = true.
Proof.
  intros [-> | ->]; [reflexivity|]. unfold listing_filter.
  destruct (truthy (Product.category product)); [|reflexivity].
  apply matches_category. rewrite dict_get_set_ne by discriminate. reflexivity.
Qed.

(** C7, amended: when fewer than 100 records of the product collection match
    the listing's filter, a listing without category, or with the new
    product's category, that follows [create_product] contains the record
    just created. *)
Theorem create_product_then_list (product : Product.t)
    (category : option string) (db : database) :
  category = None ∨ category = Some (Product.category product) →
  (length (filter (λ d, matches (listing_filter category) d)
             (collection "product" db)) < 100)%nat →
  ∃ doc db' docs, create_product product db = (Ok doc, db')
    ∧ list_products category db' = (Ok docs, db')
    ∧ doc ∈ docs.
Proof.
  intros Hcat Hroom.
  destruct (create_document_run "product" (Product.dict product) db)
    as (db' & Hrun & Hcoll & _ & _).
  set (doc := dict_set "id" (VId (next_id db)) (Product.dict product)) in *.
  exists doc, db'. eexists.
  split; [unfold create_product, bind; by rewrite Hrun|].
  split; [apply list_products_run|].
  fold (listing_filter category). rewrite Hcoll, filter_app.
  rewrite (filter_cons_True _ doc []);
    [|apply Is_true_true, created_product_matches; exact Hcat].
  apply elem_of_take. eexists. split; [|exact Hroom].
  by apply list_lookup_middle.
Qed.

Lemma create_product_then_list_witness :
  ∃ doc db' docs, create_product salted_chips empty_db = (Ok doc, db')
    ∧ list_products (Some "potato") db' = (Ok docs, db')
    ∧ doc ∈ docs.
Proof.
  apply (create_product_then_list salted_chips (Some "potato") empty_db).
  - right. reflexivity.
  - vm_compute. lia.
Defined.

(** C7 as stated fails on a store that already lists 100 products: the new
    record is stored behind them and the listing stops at 100. *)
Lemma full_listing_misses_new_product_counterexample :
  ∃ doc db', create_product salted_chips full_db = (Ok doc, db')
    ∧ (∃ docs, list_products None db' = (Ok docs, db') ∧ doc ∉ docs)
    ∧ (∃ docs, list_products (Some "potato") db' = (Ok docs, db') ∧ doc ∉ docs).
Proof.
  destruct (create_document_run "product" (Product.dict salted_chips) full_db)
    as (db' & Hrun & Hcoll & _ & _).
  change (collection "product" full_db) with (replicate 100 potato_record) in Hcoll.
  eexists; exists db'.
  split; [unfold create_product, bind; by rewrite Hrun|].
  assert (∀ category, category = None ∨ category = Some "potato" →
            list_products category db' = (Ok (replicate 100 potato_record), db'))
    as Hlist.
  { intros category Hc. rewrite list_products_run, Hcoll.
    by destruct Hc as [-> | ->]. }
  split; exists (replicate 100 potato_record);
    (split; [apply Hlist; auto|]);
    intros [Heq _]%elem_of_replicate; discriminate Heq.
Qed.

(** ** Floats *)

(** The literal [9.47] is the float [5331136058899825 * 2^-49]. *)
Example float_lit_9_47 :
  float_lit 947 100 = S754_finite false 5331136058899825 (-49).
Proof. vm_compute. reflexivity. Qed.

(** [round(x, 2)] rounds the exact binary value: [2.675] lies below the tie
    and goes to [2.67], the exact tie [0.125] goes to the even [0.12]. *)
Example round2_examples :
  round2 (float_lit 2675 1000) = float_lit 267 100
  ∧ round2 (float_lit 125 1000) = float_lit 12 100
  ∧ round2 (float_lit 375 1000) = float_lit 38 100.
Proof. vm_compute. done. Qed.

(** The float range ends between [2^1024 - 2^970 - 1] and [2^1024 - 2^970]. *)
Example in_float_range_boundary :
  in_float_range (2 ^ 1024 - 2 ^ 970 - 1) ∧ ¬ in_float_range (2 ^ 1024 - 2 ^ 970)
  ∧ in_float_range (- (2 ^ 1024 - 2 ^ 970 - 1)).
Proof.
  split; [|split].
  - vm_compute. eexists; reflexivity.
  - intros [y Hy]. vm_compute in Hy. discriminate Hy.
  - vm_compute. eexists; reflexivity.
Qed.

(** ** Orders *)

Lemma int_to_float_nearest (n : Z) (f : float) :
  int_to_float n = Some f → f = nearest n.
Proof. unfold int_to_float. destruct (nearest n); congruence. Qed.

Lemma float_mul_int_in_range (x : float) (n : Z) (db : database) :
  in_float_range n → float_mul_int x n db = (Ok (fmul x (nearest n)), db).
Proof.
  intros [y Hy]. unfold float_mul_int. rewrite Hy.
  by rewrite (int_to_float_nearest _ _ Hy).
Qed.

Lemma subtotal_loop_in_range (its : list OrderItem.t) (acc : float)
    (db : database) :
  quantities_in_range its →
  subtotal_loop its acc db = (Ok (fold_left fadd (map line_total its) acc), db).
Proof.
  intros Hrange. revert acc.
  induction Hrange as [|item its Hitem _ IH]; intros acc; [reflexivity|].
  simpl. unfold bind. rewrite (float_mul_int_in_range _ _ _ Hitem). apply IH.
Qed.

(** The loop either runs through, all quantities being in range, or stops at
    the first quantity that is not, with the store untouched. *)
Lemma subtotal_loop_cases (its : list OrderItem.t) (acc : float)
    (db : database) :
  (quantities_in_range its
   ∧ subtotal_loop its acc db = (Ok (fold_left fadd (map line_total its) acc), db))
  ∨ (¬ quantities_in_range its
     ∧ subtotal_loop its acc db
       = (Raise (OverflowError "int too large to convert to float"), db)).
Proof.
  revert acc. induction its as [|item its IH]; intros acc.
  - left. split; [constructor | reflexivity].
  - simpl. unfold bind, float_mul_int.
    destruct (int_to_float (OrderItem.quantity item)) as [y|] eqn:Hq.
    + rewrite (int_to_float_nearest _ _ Hq).
      destruct (IH (fadd acc (fmul (OrderItem.price item)
                                (nearest (OrderItem.quantity item)))))
        as [[Hr Hrun] | [Hr Hrun]].
      * left. split; [constructor; [by eexists | done] | exact Hrun].
      * right. split; [|exact Hrun].
        intros Hall. apply Hr. by inversion Hall.
    + right. split; [|reflexivity].
      intros Hall. inversion Hall as [|? ? [y Hy] _]; subst. congruence.
Qed.

Lemma create_order_in_range (order : Order.t) (db : database) :
  Order.items order ≠ [] →
  quantities_in_range (Order.items order) →
  ∃ db', create_order order db = (Ok (stored_order order (next_id db)), db')
    ∧ collection "order" db'
      = collection "order" db ++ [stored_order order (next_id db)]
    ∧ ∀ name, name ≠ "order" → collection name db' = collection name db.
Proof.
  intros Hne Hrange. unfold create_order.
  destruct (Order.items order) as [|item its] eqn:Hitems; [done|].
  unfold bind. rewrite (subtotal_loop_in_range _ _ _ Hrange).
  match goal with
  | |- context [create_document ?c ?d db] =>
      destruct (create_document_run c d db) as (db' & Hrun & Hcoll & Hother & _);
      rewrite Hrun
  end.
  exists db'. unfold stored_order. rewrite Hitems.
  split; [reflexivity|]. split; [exact Hcoll|].
  intros name Hn. by apply Hother.
Qed.

Lemma create_order_out_of_range (order : Order.t) (db : database) :
  Order.items order ≠ [] →
  ¬ quantities_in_range (Order.items order) →
  create_order order db
  = (Raise (OverflowError "int too large to convert to float"), db).
Proof.
  intros Hne Hrange. unfold create_order.
  destruct (Order.items order) as [|item its] eqn:Hitems; [done|].
  unfold bind.
  destruct (subtotal_loop_cases (item :: its) zero db) as [[Hr _] | [_ Hrun]];
    [done | by rewrite Hrun].
Qed.

(** C1, amended: for every order with at least one item and with every
    quantity in the range of a float, [create_order] stores and returns an
    order whose subtotal is the rounded sum of price times quantity over its
    items, whatever subtotal the client submitted. *)
Theorem create_order_recomputes_subtotal (order : Order.t) (db : database) :
  Order.items order ≠ [] →
  quantities_in_range (Order.items order) →
  ∃ doc db', create_order order db = (Ok doc, db')
    ∧ collection "order" db' = collection "order" db ++ [doc]
    ∧ dict_get "subtotal" doc
      = Some (VFloat (recomputed_subtotal (Order.items order)))
    ∧ ∀ submitted,
        create_order {| Order.items := Order.items order;
                        Order.subtotal := submitted |} db = (Ok doc, db').
Proof.
  intros Hne Hrange.
  destruct (create_order_in_range order db Hne Hrange) as (db' & Hrun & Hcoll & _).
  exists (stored_order order (next_id db)), db'.
  split; [exact Hrun|]. split; [exact Hcoll|]. split; [reflexivity|].
  intros submitted. rewrite <- Hrun. reflexivity.
Qed.

Lemma example_order_in_range (p1 p2 : string) (submitted : float) :
  quantities_in_range (Order.items (example_order p1 p2 submitted)).
Proof. repeat constructor; vm_compute; eexists; reflexivity. Defined.

Lemma create_order_recomputes_subtotal_witness :
  ∃ doc db',
    create_order (example_order "chips-1" "chips-2" zero) empty_db = (Ok doc, db')
    ∧ collection "order" db' = collection "order" empty_db ++ [doc]
    ∧ dict_get "subtotal" doc
      = Some (VFloat (recomputed_subtotal
                        (Order.items (example_order "chips-1" "chips-2" zero))))
    ∧ ∀ submitted,
        create_order (example_order "chips-1" "chips-2" submitted) empty_db
        = (Ok doc, db').
Proof.
  apply (create_order_recomputes_subtotal
           (example_order "chips-1" "chips-2" zero) empty_db).
  - discriminate.
  - apply example_order_in_range.
Defined.

(** C1 as stated fails on an order whose quantity is past the float range:
    the multiplication raises [OverflowError] and nothing is stored or
    returned. *)
Lemma huge_quantity_overflows_counterexample :
  Order.items huge_order ≠ []
  ∧ create_order huge_order empty_db
    = (Raise (OverflowError "int too large to convert to float"), empty_db)
  ∧ ¬ ∃ doc db', create_order huge_order empty_db = (Ok doc, db').
Proof.
  assert (create_order huge_order empty_db
          = (Raise (OverflowError "int too large to convert to float"), empty_db))
    as Hrun by (vm_compute; reflexivity).
  split; [discriminate|]. split; [exact Hrun|].
  intros (doc & db' & Hok). rewrite Hrun in Hok. discriminate Hok.
Qed.

(** C5: for the items [2.99 x 2] and [3.49 x 1] the stored and returned
    subtotal is the float [9.47], whatever the product references, the
    submitted subtotal and the store. *)
Theorem create_order_example_subtotal (p1 p2 : string) (submitted : float)
    (db : database) :
  ∃ doc db', create_order (example_order p1 p2 submitted) db = (Ok doc, db')
    ∧ collection "order" db' = collection "order" db ++ [doc]
    ∧ dict_get "subtotal" doc = Some (VFloat (float_lit 947 100)).
Proof.
  destruct (create_order_in_range (example_order p1 p2 submitted) db)
    as (db' & Hrun & Hcoll & _);
    [discriminate | apply example_order_in_range |].
  eexists; exists db'. split; [exact Hrun|]. split; [exact Hcoll|].
  vm_compute. reflexivity.
Qed.

(** C8: for every order with at least one item, a document that
    [create_order] stores is the submitted order with its items list as
    given, item by item and in the same order, a subtotal field and the id of
    the store: apart from subtotal every field is as submitted.  It is
    stored for every order whose quantities are in the float range; for the
    others nothing is stored. *)
Theorem create_order_preserves_fields (order : Order.t) (db : database) :
  Order.items order ≠ [] →
  (quantities_in_range (Order.items order) →
     ∃ doc db', create_order order db = (Ok doc, db'))
  ∧ match create_order order db with
    | (Ok doc, db') =>
        collection "order" db' = collection "order" db ++ [doc]
        ∧ dict_get "items" doc
          = Some (VList (map (λ i, VDict [ ("product_id", VStr (OrderItem.product_id i));
                                           ("price", VFloat (OrderItem.price i));
                                           ("quantity", VInt (OrderItem.quantity i)) ])
                           (Order.items order)))
        ∧ (∀ k, k ≠ "subtotal" → k ≠ "id" →
             dict_get k doc = dict_get k (Order.dict order))
        ∧ doc.*1 = ["items"; "subtotal"; "id"]
    | (Raise e, db') =>
        db' = db ∧ e = OverflowError "int too large to convert to float"
    end.
Proof.
  intros Hne. split.
  - intros Hrange.
    destruct (create_order_in_range order db Hne Hrange) as (db' & Hrun & _).
    eauto.
  - destruct (subtotal_loop_cases (Order.items order) zero db)
      as [[Hrange _] | [Hrange _]].
    + destruct (create_order_in_range order db Hne Hrange)
        as (db' & Hrun & Hcoll & _).
      rewrite Hrun. split; [exact Hcoll|]. split; [reflexivity|].
      split; [|reflexivity].
      intros k Hk1 Hk2. unfold stored_order, Order.dict. simpl.
      destruct (String.eqb k "items"); [reflexivity|].
      destruct (String.eqb k "subtotal") eqn:E1;
        [apply String.eqb_eq in E1; done|].
      destruct (String.eqb k "id") eqn:E2;
        [apply String.eqb_eq in E2; done | reflexivity].
    + rewrite (create_order_out_of_range order db Hne Hrange). done.
Qed.

Lemma create_order_preserves_fields_witness :
  ∃ doc db',
    create_order (example_order "chips-1" "chips-2" zero) empty_db = (Ok doc, db')
    ∧ dict_get "items" doc
      = dict_get "items" (Order.dict (example_order "chips-1" "chips-2" zero)).
Proof.
  destruct (create_order_preserves_fields
              (example_order "chips-1" "chips-2" zero) empty_db)
    as [Hok Hfields]; [discriminate|].
  destruct (Hok (example_order_in_range _ _ _)) as (doc & db' & Hrun).
  rewrite Hrun in Hfields. destruct Hfields as (_ & _ & Hkeep & _).
  exists doc, db'. split; [exact Hrun|]. apply Hkeep; discriminate.
Defined.

(** ** The diagnostic handler *)

Ltac by_handle db :=
  destruct db as [[[|?v|[?m|?m]] [?collections|[?m'|?m']]]|].

Ltac not_only_Exception H :=
  exfalso; destruct (H _ eq_refl) as [?Hname ?Hlist];
  first [ specialize (Hname _ eq_refl); discriminate Hname
        | specialize (Hlist _ eq_refl); discriminate Hlist ].

Lemma test_database_returns (db : option Database) (environ : gmap string pystr) :
  raises_only_Exception db → ∃ response, test_database db environ = Ok response.
Proof.
  intros Honly. by_handle db;
    first [ eexists; reflexivity | not_only_Exception Honly ].
Qed.

(** What [test_database] lets through is not an instance of [Exception],
    and it was raised by the handle. *)
Lemma test_database_propagates (db : option Database)
    (environ : gmap string pystr) (e : raised) :
  test_database db environ = Raise e →
  is_Exception e = false ∧ ¬ raises_only_Exception db.
Proof.
  by_handle db; intros Hr; try discriminate Hr;
    injection Hr as <-; (split; [reflexivity|]);
    intros Honly; not_only_Exception Honly.
Qed.

Lemma refusing_handle_only_Exception :
  raises_only_Exception (Some refusing_handle).
Proof.
  intros d [= <-]. split; intros e He; [discriminate He|].
  injection He as <-. reflexivity.
Qed.

(** C10, amended: whenever what the store handle raises is an instance of
    [Exception], [test_database] returns its diagnostic object: a failure
    while listing the collections, or while reading the handle's name, ends
    up in the [database] line as the exception's text cut to at most 50
    characters, and at most 10 collection names are reported. *)
Theorem test_database_catches_Exception (db : option Database)
    (environ : gmap string pystr) :
  raises_only_Exception db →
  ∃ response, test_database db environ = Ok response
    ∧ (∃ names, dict_get "collections" response = Some (DNames names)
         ∧ (length names ≤ 10)%nat)
    ∧ match db with
      | None =>
          dict_get "database" response
          = Some (DStr (warn_mark ++ lit "  Available but not initialized"))
      | Some d =>
          match name d, list_collection_names d with
          | AttributeRaises e, _ =>
              ∃ m, dict_get "database" response
                   = Some (DStr (no_mark ++ lit " Error: " ++ m))
                ∧ m = take 50 (text e) ∧ (length m ≤ 50)%nat
          | _, Raise e =>
              ∃ m, dict_get "database" response
                   = Some (DStr (warn_mark ++ lit "  Connected but Error: " ++ m))
                ∧ m = take 50 (text e) ∧ (length m ≤ 50)%nat
          | _, Ok collections =>
              dict_get "database" response
              = Some (DStr (ok_mark ++ lit " Connected & Working"))
              ∧ dict_get "collections" response = Some (DNames (take 10 collections))
          end
      end.
Proof.
  intros Honly. by_handle db;
    first
      [ not_only_Exception Honly
      | (eexists; split; [reflexivity|]);
        (split; [eexists; split;
                   [reflexivity | first [rewrite length_take; lia | simpl; lia]]|]);
        simpl;
        first [ done
              | eexists; split; [reflexivity|]; split; [reflexivity|];
                rewrite length_take; lia ] ].
Qed.

Lemma test_database_catches_Exception_witness :
  ∃ response, test_database (Some refusing_handle) ∅ = Ok response
    ∧ dict_get "database" response
      = Some (DStr (warn_mark ++ lit "  Connected but Error: "
                    ++ lit "connection refused")).
Proof.
  destruct (test_database_catches_Exception (Some refusing_handle) ∅
              refusing_handle_only_Exception)
    as (response & Hrun & _ & m & Hline & -> & _).
  exists response. split; [exact Hrun | exact Hline].
Defined.

(** C10 as stated fails on a handle whose call raises outside [Exception]:
    neither [except Exception] catches a [KeyboardInterrupt], so it leaves
    [test_database] and no diagnostic is returned. *)
Lemma interrupted_listing_propagates_counterexample :
  test_database (Some interrupted_handle) ∅ = Raise (ABaseException [])
  ∧ ¬ ∃ response, test_database (Some interrupted_handle) ∅ = Ok response.
Proof.
  split; [reflexivity|]. intros (response & Hr). discriminate Hr.
Qed.

(** ** Errors *)

(** What [create_order] does, by cases on the order. *)
Lemma create_order_cases (order : Order.t) (db : database) :
  (Order.items order = [] ∧ create_order order db = (Raise empty_order_error, db))
  ∨ (Order.items order ≠ []
     ∧ ∃ db', create_order order db = (Ok (stored_order order (next_id db)), db'))
  ∨ (Order.items order ≠ []
     ∧ create_order order db
       = (Raise (OverflowError "int too large to convert to float"), db)).
Proof.
  destruct (Order.items order) as [|item its] eqn:Hitems.
  - left. split; [done|]. unfold create_order. by rewrite Hitems.
  - right.
    assert (Order.items order ≠ []) as Hne by (rewrite Hitems; discriminate).
    destruct (subtotal_loop_cases (Order.items order) zero db)
      as [[Hrange _] | [Hrange _]].
    + left. split; [discriminate|].
      destruct (create_order_in_range order db Hne Hrange) as (db' & Hrun & _).
      eauto.
    + right. split; [discriminate|].
      by apply create_order_out_of_range.
Qed.

(** No route other than [POST /api/orders] raises, but for what
    [test_database] lets through. *)
Lemma app_other_routes (h : option Database) (environ : gmap string pystr)
    (req : request) (db : database) :
  (∀ order, req ≠ POST_api_orders order) →
  ∃ db', (∃ r, app h environ req db = (Ok r, db'))
         ∨ (∃ e, app h environ req db = (Raise (Propagated e), db')).
Proof.
  intros Hreq. destruct req as [| |category|product| |order|]; simpl.
  - eexists; left; eexists; reflexivity.
  - eexists; left; eexists; reflexivity.
  - eexists; left; eexists; reflexivity.
  - eexists; left; eexists; reflexivity.
  - unfold bind.
    destruct (collection "product" db) as [|d l] eqn:Hcoll.
    + destruct (seed_products_empty db Hcoll) as (db' & -> & _). eauto.
    + rewrite seed_products_nonempty by (rewrite Hcoll; discriminate). eauto.
  - by destruct (Hreq order).
  - destruct (test_database h environ) as [r|e];
      eexists; [left | right]; eexists; reflexivity.
Qed.

(** C2: [create_order] raises the 400 error with its fixed message exactly
    when the items list is empty, nothing is stored when it raises, and no
    route raises any other [HTTPException]. *)
Theorem empty_order_is_the_only_client_error :
  (∀ order db,
     (Order.items order = [] →
        create_order order db = (Raise empty_order_error, db))
     ∧ (∀ code detail db',
          create_order order db = (Raise (HTTPException code detail), db') →
          Order.items order = []))
  ∧ (∀ order db e db', create_order order db = (Raise e, db') → db' = db)
  ∧ (∀ h environ req db code detail db',
       app h environ req db = (Raise (HTTPException code detail), db') →
       (∃ order, req = POST_api_orders order ∧ Order.items order = [])
       ∧ HTTPException code detail = empty_order_error
       ∧ db' = db).
Proof.
  split; [|split].
  - intros order db.
    destruct (create_order_cases order db)
      as [[Hempty Hrun] | [[Hne (db1 & Hrun)] | [Hne Hrun]]];
      (split; [intros Hitems | intros code detail db' Hraise]);
      first [ done | rewrite Hrun in Hraise; discriminate Hraise ].
  - intros order db e db' Hraise.
    destruct (create_order_cases order db)
      as [[Hempty Hrun] | [[Hne (db1 & Hrun)] | [Hne Hrun]]];
      rewrite Hrun in Hraise; congruence.
  - intros h environ req db code detail db' Hraise.
    destruct req as [| |category|product| |order|];
      try (match type of Hraise with
           | app _ _ ?q _ = _ =>
               destruct (app_other_routes h environ q db)
                 as (db1 & [(r & Hrun) | (e & Hrun)]);
               [intros ?; discriminate
               | rewrite Hrun in Hraise; discriminate Hraise
               | rewrite Hrun in Hraise; discriminate Hraise]
           end).
    simpl in Hraise. unfold bind in Hraise.
    destruct (create_order_cases order db)
      as [[Hempty Hrun] | [[Hne (db1 & Hrun)] | [Hne Hrun]]];
      rewrite Hrun in Hraise; [|discriminate Hraise..].
    inversion Hraise; subst. eauto.
Qed.

Lemma empty_order_is_the_only_client_error_witness :
  create_order empty_order empty_db = (Raise empty_order_error, empty_db).
Proof.
  destruct empty_order_is_the_only_client_error as (Hiff & _ & _).
  destruct (Hiff empty_order empty_db) as [Hraise _].
  exact (Hraise eq_refl).
Defined.

(** * Further properties of the handlers *)

(** ** What a request does to the store *)

Lemma appends_nothing (name : string) (db : database) : appends name [] db db.
Proof.
  split; [by rewrite app_nil_r|]. split; [done|]. simpl. lia.
Qed.

Lemma create_document_appends (name : string) (data : document) (db : database) :
  ∃ doc db', create_document name data db = (Ok doc, db')
    ∧ appends name [doc] db db'.
Proof.
  destruct (create_document_run name data db) as (db' & Hrun & Hcoll & Hother & Hid).
  eexists _, db'. split; [exact Hrun|]. split; [exact Hcoll|].
  split; [exact Hother|]. rewrite Hid. simpl. lia.
Qed.

Lemma seed_products_effect (db : database) :
  ∃ r added db', seed_products db = (Ok r, db')
    ∧ appends "product" added db db' ∧ (length added ≤ 4)%nat.
Proof.
  destruct (collection "product" db) as [|d l] eqn:Hcoll.
  - destruct (seed_loop_run chips 0 db) as (db' & Hloop & Hc & Hother & Hid).
    exists [("inserted", VInt 4)], (with_ids (next_id db) chips), db'.
    split; [|split; [|simpl; lia]].
    + unfold seed_products, bind, get_documents. rewrite Hcoll.
      cbn -[seed_loop chips]. rewrite Hloop. reflexivity.
    + split; [exact Hc|]. split; [|rewrite Hid; reflexivity].
      intros name' Hne. apply Hother. congruence.
  - exists already_seeded, [], db. split; [|split; [apply appends_nothing|simpl; lia]].
    apply seed_products_nonempty. rewrite Hcoll. discriminate.
Qed.

Lemma create_order_effect (order : Order.t) (db : database) :
  ∃ r added db', create_order order db = (r, db')
    ∧ appends "order" added db db' ∧ (length added ≤ 1)%nat.
Proof.
  unfold create_order.
  destruct (Order.items order) as [|item its] eqn:Hitems.
  - eexists _, [], db. split; [reflexivity|].
    split; [apply appends_nothing | simpl; lia].
  - unfold bind.
    destruct (subtotal_loop_cases (item :: its) zero db) as [[_ Hrun] | [_ Hrun]];
      rewrite Hrun.
    + match goal with
      | |- context [create_document ?c ?d db] =>
          destruct (create_document_appends c d db) as (doc & db' & Hdoc & Happ);
          rewrite Hdoc
      end.
      eexists _, [doc], db'. split; [reflexivity|]. split; [exact Happ | simpl; lia].
    + eexists _, [], db. split; [reflexivity|].
      split; [apply appends_nothing | simpl; lia].
Qed.

Lemma app_effect (h : option Database) (environ : gmap string pystr)
    (req : request) (db : database) :
  ∃ r name added db', app h environ req db = (r, db')
    ∧ (name = "product" ∨ name = "order")
    ∧ appends name added db db'
    ∧ (length added ≤ 4)%nat
    ∧ (read_only req = true → db' = db).
Proof.
  destruct req as [| |category|product| |order|]; simpl.
  - eexists _, "product", [], db.
    split; [reflexivity|]. split; [by left|].
    split; [apply appends_nothing|]. split; [simpl; lia | done].
  - eexists _, "product", [], db.
    split; [reflexivity|]. split; [by left|].
    split; [apply appends_nothing|]. split; [simpl; lia | done].
  - eexists _, "product", [], db.
    split; [reflexivity|]. split; [by left|].
    split; [apply appends_nothing|]. split; [simpl; lia | done].
  - destruct (create_document_appends "product" (Product.dict product) db)
      as (doc & db' & Hrun & Happ).
    eexists _, "product", [doc], db'.
    split; [unfold bind, create_product, bind; rewrite Hrun; reflexivity|].
    split; [by left|]. split; [exact Happ|]. split; [simpl; lia | done].
  - destruct (seed_products_effect db) as (r & added & db' & Hrun & Happ & Hlen).
    eexists _, "product", added, db'.
    split; [unfold bind; rewrite Hrun; reflexivity|].
    split; [by left|]. split; [exact Happ|]. split; [exact Hlen | done].
  - destruct (create_order_effect order db) as (r & added & db' & Hrun & Happ & Hlen).
    exists (match r with Ok d => Ok (Doc d) | Raise e => Raise e end), "order", added, db'.
    split; [unfold bind; rewrite Hrun; by destruct r|].
    split; [by right|]. split; [exact Happ|]. split; [lia | done].
  - destruct (test_database h environ) as [r|e];
      eexists _, "product", [], db;
      (split; [reflexivity|]); (split; [by left|]);
      (split; [apply appends_nothing|]); (split; [simpl; lia | done]).
Qed.

Lemma appends_prefix (name name' : string) (added : list document)
    (db db' : database) :
  appends name added db db' →
  collection name' db `prefix_of` collection name' db'.
Proof.
  intros (Hcoll & Hother & _). destruct (decide (name = name')) as [<- | Hne].
  - rewrite Hcoll. by eexists.
  - by rewrite Hother.
Qed.

(** X1: whatever the request and its outcome, the store only grows: every
    collection is kept as a prefix of itself, only the product and the order
    collection can change, by at most four documents in all, the id counter
    never goes back, and the four reading routes change nothing. *)
Theorem app_only_appends (h : option Database) (environ : gmap string pystr)
    (req : request) (db : database) :
  let db' := (app h environ req db).2 in
  (∀ name, collection name db `prefix_of` collection name db')
  ∧ (∀ name, name ≠ "product" → name ≠ "order" →
       collection name db' = collection name db)
  ∧ (length (collection "product" db') + length (collection "order" db')
     ≤ length (collection "product" db) + length (collection "order" db) + 4)%nat
  ∧ (next_id db ≤ next_id db')%nat
  ∧ (read_only req = true → db' = db).
Proof.
  destruct (app_effect h environ req db)
    as (r & name & added & db' & Hrun & Hname & Happ & Hlen & Hread).
  rewrite Hrun. simpl.
  split; [intros name'; by eapply appends_prefix|].
  destruct Happ as (Hcoll & Hother & Hid).
  split; [|split; [|split; [lia | exact Hread]]].
  - intros name' H1 H2. apply Hother. destruct Hname; congruence.
  - destruct Hname as [-> | ->].
    + rewrite Hcoll, (Hother "order"), length_app by discriminate. lia.
    + rewrite Hcoll, (Hother "product"), length_app by discriminate. lia.
Qed.

(** ** Listings *)

Lemma take_prefix_app {A} (n : nat) (l k : list A) :
  take n l `prefix_of` take n (l ++ k).
Proof. rewrite take_app. by eexists. Qed.

Lemma listing_prefix (f : document) (l k : list document) :
  take 100 (filter (λ d, matches f d) l)
  `prefix_of` take 100 (filter (λ d, matches f d) (l ++ k)).
Proof. rewrite filter_app. apply take_prefix_app. Qed.

(** X2: a listing never misses a product while at most 100 match: with a
    non-empty category the result is then exactly the stored products of that
    category, and without a category, when the collection holds at most 100
    products, it is the whole collection in stored order. *)
Theorem list_products_complete (db : database) :
  (∀ c, c ≠ "" →
     (length (filter (λ d, matches [("category", VStr c)] d)
                (collection "product" db)) ≤ 100)%nat →
     ∃ docs, list_products (Some c) db = (Ok docs, db)
       ∧ ∀ d, d ∈ docs ↔
              d ∈ collection "product" db
              ∧ dict_get "category" d = Some (VStr c))
  ∧ ((length (collection "product" db) ≤ 100)%nat →
       list_products None db = (Ok (collection "product" db), db)).
Proof.
  split.
  - intros c Hc Hlen. eexists. split; [apply list_products_run|].
    cbv beta iota.
    assert (truthy c = true) as ->.
    { unfold truthy. by apply negb_true_iff, String.eqb_neq. }
    rewrite take_ge by exact Hlen. intros d.
    rewrite list_elem_of_filter, Is_true_true, matches_category. tauto.
  - intros Hlen. rewrite list_products_run. simpl.
    by rewrite filter_matches_all, take_ge.
Qed.

Lemma list_products_complete_witness :
  ∃ docs, list_products (Some "potato") small_db = (Ok docs, small_db)
    ∧ ∀ d, d ∈ docs ↔
           d ∈ collection "product" small_db
           ∧ dict_get "category" d = Some (VStr "potato").
Proof.
  destruct (list_products_complete small_db) as [Hcat _].
  apply (Hcat "potato"); [discriminate | vm_compute; lia].
Defined.

(** X3: placing an order, whether it is stored or refused, leaves the
    product collection alone, so every listing answers the same before and
    after; creating a product and seeding leave the order collection alone. *)
Theorem handlers_keep_to_their_collection (db : database) :
  (∀ order,
     collection "product" (create_order order db).2 = collection "product" db)
  ∧ (∀ order category,
       ∃ docs, list_products category db = (Ok docs, db)
         ∧ list_products category (create_order order db).2
           = (Ok docs, (create_order order db).2))
  ∧ (∀ product,
       collection "order" (create_product product db).2 = collection "order" db)
  ∧ collection "order" (seed_products db).2 = collection "order" db.
Proof.
  split; [|split; [|split]].
  - intros order.
    destruct (create_order_effect order db)
      as (r & added & db' & Hrun & (_ & Hother & _) & _).
    rewrite Hrun. simpl. apply Hother. discriminate.
  - intros order category.
    destruct (create_order_effect order db)
      as (r & added & db' & Hrun & (_ & Hother & _) & _).
    rewrite Hrun. simpl. eexists. split; [apply list_products_run|].
    rewrite list_products_run, (Hother "product") by discriminate. reflexivity.
  - intros product.
    destruct (create_document_appends "product" (Product.dict product) db)
      as (doc & db' & Hrun & (_ & Hother & _)).
    unfold create_product, bind. rewrite Hrun. simpl.
    apply Hother. discriminate.
  - destruct (seed_products_effect db)
      as (r & added & db' & Hrun & (_ & Hother & _) & _).
    rewrite Hrun. simpl. apply Hother. discriminate.
Qed.

(** ** Seeding and the other handlers *)

(** X4: once a product has been created, on whatever store, seeding does
    nothing: it reports [inserted: 0] and the store stays as it is. *)
Theorem seed_skipped_after_create_product (product : Product.t)
    (db : database) :
  ∃ doc db', create_product product db = (Ok doc, db')
    ∧ seed_products db' = (Ok already_seeded, db').
Proof.
  destruct (create_document_run "product" (Product.dict product) db)
    as (db' & Hrun & Hcoll & _).
  eexists _, db'. split; [unfold create_product, bind; by rewrite Hrun|].
  apply seed_products_nonempty. rewrite Hcoll.
  intros Hnil. by apply app_eq_nil in Hnil as [_ ?].
Qed.

Lemma seeded_listing (n : nat) (c : string) :
  c ≠ "" →
  titles (filter (λ d, matches [("category", VStr c)] d) (with_ids n chips))
  = if String.eqb c "potato"
    then [Some (VStr "Classic Salted Potato Chips"); Some (VStr "Cheddar Ridges")]
    else if String.eqb c "tortilla" then [Some (VStr "Spicy Tortilla Chips")]
    else if String.eqb c "kettle" then [Some (VStr "Sea Salt Kettle Chips")]
    else [].
Proof.
  intros _.
  destruct (String.eqb c "potato") eqn:E1.
  { apply String.eqb_eq in E1. subst c. reflexivity. }
  destruct (String.eqb c "tortilla") eqn:E2.
  { apply String.eqb_eq in E2. subst c. reflexivity. }
  destruct (String.eqb c "kettle") eqn:E3.
  { apply String.eqb_eq in E3. subst c. reflexivity. }
  unfold chips, with_ids.
  repeat (rewrite filter_cons_False;
          [|intros Hd%Is_true_true%matches_category; vm_compute in Hd;
            injection Hd as <-; discriminate]).
  reflexivity.
Qed.

(** X5: after seeding a store without products, the listing without
    category shows the four chips in seed order, the listing of [potato]
    shows the two potato chips, [tortilla] and [kettle] one each, and any
    other non-empty category shows nothing. *)
Theorem seed_then_list (db : database) :
  collection "product" db = [] →
  ∃ db', seed_products db = (Ok [("inserted", VInt 4)], db')
    ∧ (∃ docs, list_products None db' = (Ok docs, db')
         ∧ titles docs
           = [ Some (VStr "Classic Salted Potato Chips");
               Some (VStr "Spicy Tortilla Chips");
               Some (VStr "Cheddar Ridges");
               Some (VStr "Sea Salt Kettle Chips") ])
    ∧ ∀ c, c ≠ "" →
        ∃ docs, list_products (Some c) db' = (Ok docs, db')
          ∧ titles docs
            = if String.eqb c "potato"
              then [ Some (VStr "Classic Salted Potato Chips");
                     Some (VStr "Cheddar Ridges") ]
              else if String.eqb c "tortilla"
              then [ Some (VStr "Spicy Tortilla Chips") ]
              else if String.eqb c "kettle"
              then [ Some (VStr "Sea Salt Kettle Chips") ]
              else [].
Proof.
  intros Hempty.
  destruct (seed_products_empty db Hempty) as (db' & Hrun & Hcoll & _).
  exists db'. split; [exact Hrun|]. split.
  - eexists. split; [apply list_products_run|].
    cbv beta iota. rewrite Hcoll, filter_matches_all. reflexivity.
  - intros c Hc. eexists. split; [apply list_products_run|].
    cbv beta iota.
    assert (truthy c = true) as ->.
    { unfold truthy. by apply negb_true_iff, String.eqb_neq. }
    rewrite Hcoll, take_ge.
    + by apply seeded_listing.
    + etrans; [apply length_filter|]. simpl. lia.
Qed.

Lemma seed_then_list_witness :
  ∃ db' docs, seed_products empty_db = (Ok [("inserted", VInt 4)], db')
    ∧ list_products (Some "potato") db' = (Ok docs, db')
    ∧ titles docs = [ Some (VStr "Classic Salted Potato Chips");
                      Some (VStr "Cheddar Ridges") ].
Proof.
  destruct (seed_then_list empty_db eq_refl) as (db' & Hrun & _ & Hcat).
  destruct (Hcat "potato") as (docs & Hlist & Htitles); [discriminate|].
  exists db', docs. split; [exact Hrun|]. split; [exact Hlist | exact Htitles].
Defined.

(** ** Orders *)

(** X6: [create_order] returns a document exactly for the orders that have
    an item and whose quantities all convert to a float; it raises
    [OverflowError] exactly for the orders that have an item and a quantity
    out of the float range. *)
Theorem create_order_succeeds_iff (order : Order.t) (db : database) :
  ((∃ doc db', create_order order db = (Ok doc, db'))
   ↔ Order.items order ≠ [] ∧ quantities_in_range (Order.items order))
  ∧ (create_order order db
     = (Raise (OverflowError "int too large to convert to float"), db)
     ↔ Order.items order ≠ [] ∧ ¬ quantities_in_range (Order.items order)).
Proof.
  destruct (create_order_cases order db)
    as [[Hempty Hrun] | [[Hne (db1 & Hrun)] | [Hne Hrun]]].
  - split; split.
    + intros (doc & db' & Hok). rewrite Hrun in Hok. discriminate Hok.
    + intros [Hne _]. done.
    + intros Hov. rewrite Hrun in Hov. discriminate Hov.
    + intros [Hne _]. done.
  - destruct (subtotal_loop_cases (Order.items order) zero db)
      as [[Hrange _] | [Hrange _]].
    + split; split; try done.
      * intros _. eauto.
      * intros Hov. rewrite Hrun in Hov. discriminate Hov.
      * intros [_ Hout]. done.
    + rewrite (create_order_out_of_range order db Hne Hrange) in Hrun.
      discriminate Hrun.
  - destruct (subtotal_loop_cases (Order.items order) zero db)
      as [[Hrange _] | [Hrange _]].
    + destruct (create_order_in_range order db Hne Hrange) as (db' & Hok & _).
      rewrite Hrun in Hok. discriminate Hok.
    + split; split; try done.
      * intros (doc & db' & Hok). rewrite Hrun in Hok. discriminate Hok.
      * intros [_ Hin]. done.
Qed.

Lemma fold_fadd_nan (l : list float) : fold_left fadd l S754_nan = S754_nan.
Proof. induction l as [|x l IH]; [done|]. simpl. exact IH. Qed.

Lemma fadd_nan_r (x : float) : fadd x S754_nan = S754_nan.
Proof. by destruct x. Qed.

(** X7: the handler does not look at prices: when an item's price is NaN,
    the order is stored all the same and its subtotal is NaN. *)
Theorem create_order_nan_price (order : Order.t) (db : database) :
  quantities_in_range (Order.items order) →
  (∃ item, item ∈ Order.items order ∧ OrderItem.price item = S754_nan) →
  ∃ doc db', create_order order db = (Ok doc, db')
    ∧ collection "order" db' = collection "order" db ++ [doc]
    ∧ dict_get "subtotal" doc = Some (VFloat S754_nan).
Proof.
  intros Hrange (item & Hin & Hnan).
  assert (Order.items order ≠ []) as Hne.
  { intros Hnil. rewrite Hnil in Hin. by apply elem_of_nil in Hin. }
  destruct (create_order_in_range order db Hne Hrange) as (db' & Hrun & Hcoll & _).
  eexists _, db'. split; [exact Hrun|]. split; [exact Hcoll|].
  assert (line_total item = S754_nan) as Hline.
  { unfold line_total. rewrite Hnan. reflexivity. }
  assert (recomputed_subtotal (Order.items order) = S754_nan) as Hsub.
  { apply list_elem_of_split in Hin as (l1 & l2 & ->).
    unfold recomputed_subtotal, sum_floats.
    rewrite map_app, fold_left_app. cbn [map fold_left].
    rewrite Hline, fadd_nan_r, fold_fadd_nan. reflexivity. }
  unfold stored_order. rewrite Hsub. reflexivity.
Qed.

Lemma create_order_nan_price_witness :
  ∃ doc db', create_order nan_order empty_db = (Ok doc, db')
    ∧ collection "order" db' = collection "order" empty_db ++ [doc]
    ∧ dict_get "subtotal" doc = Some (VFloat S754_nan).
Proof.
  apply (create_order_nan_price nan_order empty_db).
  - repeat constructor; vm_compute; eexists; reflexivity.
  - eexists. split; [apply list_elem_of_further, list_elem_of_here|].
    reflexivity.
Defined.

(** ** The diagnostic handler, field by field *)

Ltac returned db :=
  by_handle db; intros ?response ?Hr; try discriminate Hr; injection Hr as <-.

(** X8: the [database_url] and [database_name] lines of the diagnostic
    depend on the environment alone: each reads [Set] exactly when its
    variable is set to a non-empty string.  What the handle's branch wrote to
    them ([Configured], the handle's own name) never reaches the response.
    A response is returned whenever the handle raises nothing outside
    [Exception]. *)
Theorem test_database_env_lines (db : option Database)
    (environ : gmap string pystr) :
  (raises_only_Exception db →
     ∃ response, test_database db environ = Ok response)
  ∧ (∀ response, test_database db environ = Ok response →
       dict_get "database_url" response
       = Some (DStr (if getenv_truthy environ "DATABASE_URL"
                     then ok_mark ++ lit " Set" else no_mark ++ lit " Not Set"))
       ∧ dict_get "database_name" response
         = Some (DStr (if getenv_truthy environ "DATABASE_NAME"
                       then ok_mark ++ lit " Set" else no_mark ++ lit " Not Set")))
  ∧ ∀ k, getenv_truthy environ k = true
         ↔ ∃ s, environ !! k = Some s ∧ s ≠ [].
Proof.
  split; [apply test_database_returns|]. split.
  - returned db; split; reflexivity.
  - intros k; unfold getenv_truthy.
    destruct (environ !! k) as [[|c s]|]; split;
      [ discriminate | intros (s' & Hs & Hne); congruence
      | intros _; eexists; split; [reflexivity | discriminate] | done
      | discriminate | intros (s' & Hs & _); discriminate Hs ].
Qed.

Lemma test_database_env_lines_witness :
  ∃ response,
    test_database (Some refusing_handle) {["DATABASE_URL" := lit "mongodb://db"]}
    = Ok response
    ∧ dict_get "database_url" response = Some (DStr (ok_mark ++ lit " Set"))
    ∧ dict_get "database_name" response = Some (DStr (no_mark ++ lit " Not Set")).
Proof.
  destruct (test_database_env_lines (Some refusing_handle)
              {["DATABASE_URL" := lit "mongodb://db"]})
    as (Hret & Hlines & _).
  destruct (Hret refusing_handle_only_Exception) as (response & Hr).
  exists response. split; [exact Hr|]. exact (Hlines response Hr).
Defined.

(** X9: [connection_status] reads [Connected] exactly when there is a
    handle and reading its name does not raise, and [collections] holds the
    first ten names exactly when, on top of that, listing them succeeds;
    otherwise it stays empty.  The [backend] line is always [Running].  A
    response is returned whenever the handle raises nothing outside
    [Exception]. *)
Theorem test_database_connection (db : option Database)
    (environ : gmap string pystr) :
  (raises_only_Exception db →
     ∃ response, test_database db environ = Ok response)
  ∧ ∀ response, test_database db environ = Ok response →
      dict_get "backend" response = Some (DStr (ok_mark ++ lit " Running"))
      ∧ dict_get "connection_status" response
        = Some (DStr (match db with
                      | Some d =>
                          match name d with
                          | AttributeRaises _ => lit "Not Connected"
                          | _ => lit "Connected"
                          end
                      | None => lit "Not Connected"
                      end))
      ∧ dict_get "collections" response
        = Some (DNames (match db with
                        | Some d =>
                            match name d, list_collection_names d with
                            | AttributeRaises _, _ => []
                            | _, Ok collections => take 10 collections
                            | _, Raise _ => []
                            end
                        | None => []
                        end)).
Proof.
  split; [apply test_database_returns|]. returned db; repeat split.
Qed.

Lemma test_database_connection_witness :
  ∃ response, test_database (Some refusing_handle) ∅ = Ok response
    ∧ dict_get "connection_status" response = Some (DStr (lit "Connected"))
    ∧ dict_get "collections" response = Some (DNames []).
Proof.
  destruct (test_database_connection (Some refusing_handle) ∅) as (Hret & Hfields).
  destruct (Hret refusing_handle_only_Exception) as (response & Hr).
  exists response. split; [exact Hr|].
  destruct (Hfields response Hr) as (_ & Hstatus & Hcoll).
  split; [exact Hstatus | exact Hcoll].
Defined.

(** X10: the diagnostic always has the same six keys, in the same order;
    it is returned whenever the handle raises nothing outside [Exception]. *)
Theorem test_database_keys (db : option Database)
    (environ : gmap string pystr) :
  (raises_only_Exception db →
     ∃ response, test_database db environ = Ok response)
  ∧ ∀ response, test_database db environ = Ok response →
      response.*1 = [ "backend"; "database"; "database_url"; "database_name";
                      "connection_status"; "collections" ].
Proof.
  split; [apply test_database_returns|]. returned db; reflexivity.
Qed.

Lemma test_database_keys_witness :
  ∃ response, test_database (Some refusing_handle) ∅ = Ok response
    ∧ response.*1 = [ "backend"; "database"; "database_url"; "database_name";
                      "connection_status"; "collections" ].
Proof.
  destruct (test_database_keys (Some refusing_handle) ∅) as (Hret & Hkeys).
  destruct (Hret refusing_handle_only_Exception) as (response & Hr).
  exists response. split; [exact Hr | exact (Hkeys response Hr)].
Defined.

(** X11: the [database] line never keeps its initial text [Not Available]:
    every path through the handler overwrites it.  A response is returned
    whenever the handle raises nothing outside [Exception]. *)
Theorem test_database_never_not_available (db : option Database)
    (environ : gmap string pystr) :
  (raises_only_Exception db →
     ∃ response, test_database db environ = Ok response)
  ∧ ∀ response, test_database db environ = Ok response →
      dict_get "database" response ≠ dict_get "database" initial_response.
Proof.
  split; [apply test_database_returns|].
  returned db; simpl; intros H; discriminate H.
Qed.

Lemma test_database_never_not_available_witness :
  ∃ response, test_database None ∅ = Ok response
    ∧ dict_get "database" response ≠ dict_get "database" initial_response.
Proof.
  destruct (test_database_never_not_available None ∅) as (Hret & Hline).
  destruct Hret as (response & Hr); [intros d Hd; discriminate Hd|].
  exists response. split; [exact Hr | exact (Hline response Hr)].
Defined.

(** X12: the [database] line is never longer than 75 characters, however
    long the text of a caught exception is.  A response is returned whenever
    the handle raises nothing outside [Exception]. *)
Theorem test_database_line_length (db : option Database)
    (environ : gmap string pystr) :
  (raises_only_Exception db →
     ∃ response, test_database db environ = Ok response)
  ∧ ∀ response, test_database db environ = Ok response →
      ∃ line, dict_get "database" response = Some (DStr line)
        ∧ (length line ≤ 75)%nat.
Proof.
  split; [apply test_database_returns|].
  returned db; eexists; (split; [reflexivity|]);
    cbn [text]; rewrite ?length_app, ?length_take;
    cbn -[Nat.min take]; rewrite ?length_take; lia.
Qed.

Lemma test_database_line_length_witness :
  ∃ response line, test_database (Some refusing_handle) ∅ = Ok response
    ∧ dict_get "database" response = Some (DStr line)
    ∧ (length line ≤ 75)%nat.
Proof.
  destruct (test_database_line_length (Some refusing_handle) ∅) as (Hret & Hlen).
  destruct (Hret refusing_handle_only_Exception) as (response & Hr).
  destruct (Hlen response Hr) as (line & Hline & Hbound).
  exists response, line. split; [exact Hr|]. split; [exact Hline | exact Hbound].
Defined.

(** ** Sequences of requests *)

Lemma serve_prefix (h : option Database) (environ : gmap string pystr)
    (reqs : list request) (name : string) (db : database) :
  collection name db `prefix_of` collection name (serve h environ reqs db).
Proof.
  revert db. induction reqs as [|req reqs IH]; intros db; [done|].
  simpl. etrans; [|apply IH].
  destruct (app_effect h environ req db)
    as (r & name' & added & db' & Hrun & _ & Happ & _).
  rewrite Hrun. simpl. by eapply appends_prefix.
Qed.

(** X13: what a listing shows is never lost: after any sequence of
    requests, each listing starts with what it showed before. *)
Theorem listing_survives_requests (h : option Database)
    (environ : gmap string pystr) (reqs : list request)
    (category : option string) (db : database) :
  ∃ docs docs', list_products category db = (Ok docs, db)
    ∧ list_products category (serve h environ reqs db)
      = (Ok docs', serve h environ reqs db)
    ∧ docs `prefix_of` docs'.
Proof.
  eexists _, _. split; [apply list_products_run|].
  split; [apply list_products_run|].
  destruct (serve_prefix h environ reqs "product" db) as [k ->].
  apply listing_prefix.
Qed.

(** X14: seeding happens at most once: after a first call to
    [seed_products], whatever requests are handled one after the other from
    there, a later call inserts nothing and reports [inserted: 0]. *)
Theorem seed_at_most_once (h : option Database) (environ : gmap string pystr)
    (reqs : list request) (db : database) :
  let db' := serve h environ reqs (seed_products db).2 in
  seed_products db' = (Ok already_seeded, db').
Proof.
  simpl. apply seed_products_nonempty.
  destruct (serve_prefix h environ reqs "product" (seed_products db).2) as [k ->].
  assert (collection "product" (seed_products db).2 ≠ []) as Hne.
  { destruct (collection "product" db) as [|d l] eqn:Hcoll.
    - destruct (seed_products_empty db Hcoll) as (db1 & -> & Hc & _).
      simpl. rewrite Hc. discriminate.
    - rewrite seed_products_nonempty by (rewrite Hcoll; discriminate).
      simpl. rewrite Hcoll. discriminate.
  }
  intros Hnil. by apply app_eq_nil in Hnil as [? _].
Qed.
